(** * Token lifecycle and session manager of nextjs-password-protect

    A shallow embedding of the verification endpoint (the API route
    template: [tokenStore], the periodic sweep, [generateToken],
    [createTokenHash], [POST]) and of the client session manager
    ([authenticate] and [logout] of the context provider), followed by the
    properties of the token lifecycle.

    The route template does not load as shipped: its [POST] declares
    [token] twice in one block. [Route.POST] embeds the text as it stands,
    a syntax error that answers nothing; [Route.handler] embeds the
    statements with the second declaration taken as a new binding, and
    what is proved of the handler is what the route would do once that
    declaration is renamed.

    Conventions.
    - JavaScript strings are [string] (their UTF-8 bytes); numbers that
      hold epoch milliseconds are [Z] (they stay far below 2^53, where
      double arithmetic is exact); a JSON number is a [spec_float].
    - [Date.now()] and [crypto.randomBytes] are oracles of the host,
      indexed by the number of earlier reads; the handler threads the
      read counters and the token store through a small state-and-
      exception monad.
    - SHA-256 and the hex encoding are implemented, so every definition
      evaluates. *)

From Stdlib Require Import ZArith Ascii String List Lia SpecFloat.
From stdpp Require Import base option list strings gmap fin_maps.

Local Open Scope Z_scope.

(** ** Platform primitives: hex encoding and SHA-256 *)

Module Hex.

Definition digit (n : Z) : ascii :=
  match String.get (Z.to_nat n) "0123456789abcdef" with
  | Some c => c
  | None => "0"%char
  end.

(** Two lower-case digits per octet, high nibble first
    ([Buffer.prototype.toString('hex')]). *)
Definition octet (b : Z) (rest : string) : string :=
  String (digit (Z.shiftr b 4)) (String (digit (Z.land b 15)) rest).

Fixpoint encode (bs : list Z) : string :=
  match bs with
  | [] => EmptyString
  | b :: bs' => octet b (encode bs')
  end.

Definition is_digit (c : ascii) : bool :=
  let n := Z.of_N (N_of_ascii c) in
  ((48 <=? n) && (n <=? 57)) || ((97 <=? n) && (n <=? 102)).

Fixpoint all_digits (s : string) : bool :=
  match s with
  | EmptyString => true
  | String c s' => is_digit c && all_digits s'
  end.

End Hex.

Module SHA256.

Definition mask32 : Z := 0xFFFFFFFF.
Definition w32 (x : Z) : Z := Z.land x mask32.
Definition add32 (x y : Z) : Z := w32 (x + y).
Definition not32 (x : Z) : Z := Z.lxor x mask32.
Definition rotr (n x : Z) : Z :=
  Z.lor (Z.shiftr x n) (w32 (Z.shiftl x (32 - n))).

Definition Ch (x y z : Z) : Z := Z.lxor (Z.land x y) (Z.land (not32 x) z).
Definition Maj (x y z : Z) : Z :=
  Z.lxor (Z.lxor (Z.land x y) (Z.land x z)) (Z.land y z).
Definition Sigma0 (x : Z) : Z := Z.lxor (Z.lxor (rotr 2 x) (rotr 13 x)) (rotr 22 x).
Definition Sigma1 (x : Z) : Z := Z.lxor (Z.lxor (rotr 6 x) (rotr 11 x)) (rotr 25 x).
Definition sigma0 (x : Z) : Z := Z.lxor (Z.lxor (rotr 7 x) (rotr 18 x)) (Z.shiftr x 3).
Definition sigma1 (x : Z) : Z := Z.lxor (Z.lxor (rotr 17 x) (rotr 19 x)) (Z.shiftr x 10).

(** The round constants are the first 32 bits of the fractional parts of
    the cube roots of the first 64 primes, the initial hash value those of
    the square roots of the first 8; both are computed here once. *)
Fixpoint primes_from (fuel : nat) (candidate : Z) (found : list Z) (want : nat) : list Z :=
  match fuel with
  | O => rev found
  | S fuel' =>
      if (length found =? want)%nat then rev found
      else if forallb (fun q => negb (candidate mod q =? 0)) found
           then primes_from fuel' (candidate + 1) (candidate :: found) want
           else primes_from fuel' (candidate + 1) found want
  end.

Definition primes (n : nat) : list Z := primes_from 400 2 [] n.

(** The integer cube root, one bit at a time from bit [bits - 1] down. *)
Fixpoint cube_root (bits : nat) (n r : Z) : Z :=
  match bits with
  | O => r
  | S bits' =>
      let r' := r + 2 ^ Z.of_nat bits' in
      if r' * r' * r' <=? n then cube_root bits' n r' else cube_root bits' n r
  end.

Definition K : list Z :=
  Eval vm_compute in
    map (fun p => Z.land (cube_root 40 (p * 2 ^ 96) 0) mask32) (primes 64).

Definition H0 : list Z :=
  Eval vm_compute in
    map (fun p => Z.land (Z.sqrt (p * 2 ^ 64)) mask32) (primes 8).

(** Big-endian octets of [x], [n] of them. *)
Fixpoint be_octets (n : nat) (x : Z) : list Z :=
  match n with
  | O => []
  | S n' => Z.land (Z.shiftr x (8 * Z.of_nat n')) 255 :: be_octets n' x
  end.

Definition be_word (bs : list Z) : Z :=
  fold_left (fun acc b => Z.lor (Z.shiftl acc 8) b) bs 0.

Definition pad (msg : list Z) : list Z :=
  let len := Z.of_nat (length msg) in
  msg ++ 128 :: repeat 0 (Z.to_nat ((55 - len) mod 64)) ++ be_octets 8 (8 * len).

(** Cut a list into consecutive pieces of [n] elements. *)
Fixpoint pieces {A} (fuel n : nat) (l : list A) : list (list A) :=
  match fuel, l with
  | O, _ | _, [] => []
  | S fuel', _ => firstn n l :: pieces fuel' n (skipn n l)
  end.

Definition words (block : list Z) : list Z :=
  map be_word (pieces 16 4 block).

(** The message schedule, kept most recent word first. *)
Fixpoint schedule (n : nat) (rev_w : list Z) : list Z :=
  match n with
  | O => rev_w
  | S n' =>
      let w := add32 (add32 (sigma1 (nth 1 rev_w 0)) (nth 6 rev_w 0))
                     (add32 (sigma0 (nth 14 rev_w 0)) (nth 15 rev_w 0)) in
      schedule n' (w :: rev_w)
  end.

Definition round (s : list Z) (kw : Z * Z) : list Z :=
  match s with
  | [a; b; c; d; e; f; g; h] =>
      let t1 := add32 (add32 (add32 h (Sigma1 e)) (add32 (Ch e f g) (fst kw))) (snd kw) in
      let t2 := add32 (Sigma0 a) (Maj a b c) in
      [add32 t1 t2; a; b; c; add32 d t1; e; f; g]
  | _ => s
  end.

Definition compress (h : list Z) (block : list Z) : list Z :=
  let w := rev (schedule 48 (rev (words block))) in
  let s := fold_left round (combine K w) h in
  map (fun p => add32 (fst p) (snd p)) (combine h s).

Definition digest (msg : list Z) : list Z :=
  let padded := pad msg in
  let h := fold_left compress (pieces (length padded) 64 padded) H0 in
  flat_map (be_octets 4) h.

End SHA256.

Definition utf8 (s : string) : list Z :=
  map (fun c => Z.of_N (N_of_ascii c)) (list_ascii_of_string s).

Definition sha256_hex (s : string) : string :=
  Hex.encode (SHA256.digest (utf8 s)).

Arguments sha256_hex : simpl never.

(** ** JSON values as [JSON.parse] produces them, and JavaScript coercions *)

#[local] Unset Elimination Schemes.
Inductive json : Type :=
| JNull
| JBool (b : bool)
| JNumber (x : spec_float)
| JString (s : string)
| JArray (items : list json)
| JObject (members : list (string * json)).
#[local] Set Elimination Schemes.

(** A value read from a property: [None] is [undefined]. *)
Abbreviation jsval := (option json).

(** ToBoolean: [undefined], [null], [false], [0], [-0], [NaN] and the empty
    string are falsy, everything else is truthy. *)
Definition truthy (v : jsval) : bool :=
  match v with
  | None | Some JNull => false
  | Some (JBool b) => b
  | Some (JNumber (S754_zero _)) | Some (JNumber S754_nan) => false
  | Some (JNumber _) => true
  | Some (JString s) => negb (String.eqb s "")
  | Some (JArray _) | Some (JObject _) => true
  end.

(** [a || b] on an optional string. *)
Definition or_else (a : option string) (b : string) : string :=
  match a with
  | Some s => if String.eqb s "" then b else s
  | None => b
  end.

(** Own property [k] of a parsed object; a repeated member name keeps its
    last value. *)
Fixpoint member (k : string) (ms : list (string * json)) : jsval :=
  match ms with
  | [] => None
  | (k', v) :: ms' =>
      match member k ms' with
      | Some v' => Some v'
      | None => if String.eqb k k' then Some v else None
      end
  end.

(** [const { password, token } = body]: a TypeError on [null] ([None]
    here); primitives and arrays have neither property. *)
Definition destructure (body : json) : option (jsval * jsval) :=
  match body with
  | JNull => None
  | JObject ms => Some (member "password" ms, member "token" ms)
  | _ => Some (None, None)
  end.

(** [x === s] for a string [s]. *)
Definition strict_eq_string (x : jsval) (s : string) : bool :=
  match x with
  | Some (JString s') => String.eqb s' s
  | _ => false
  end.

(** ** The API route: token store, sweep and [POST] *)

Module Route.

Record TokenData := { expiresAt : Z; createdAt : Z }.

(** The process outside the handler: the environment variable, the
    clock ([clock k] is what the [k]-th call of [Date.now()] returns) and
    the CSPRNG ([entropy k] is the [k]-th octet it hands out). *)
Record Host := {
  APP_PASSWORD : option string;
  clock : nat -> Z;
  entropy : nat -> Byte.byte
}.

(** The module-level state: [tokenStore], and how far the clock and the
    generator have been read. *)
Record Server := {
  tokenStore : gmap string TokenData;
  clockReads : nat;
  entropyReads : nat
}.

Definition boot : Server :=
  {| tokenStore := ∅; clockReads := 0; entropyReads := 0 |}.

Record ResponseBody := {
  success : bool;
  error : option string;
  token : option string;
  valid : option bool
}.

Record Response := { body : ResponseBody; status : Z }.

Definition failure (msg : string) (code : Z) : Response :=
  {| body := {| success := false; error := Some msg; token := None; valid := None |};
     status := code |}.

Definition token_valid : Response :=
  {| body := {| success := true; error := None; token := None; valid := Some true |};
     status := 200 |}.

Definition token_issued (t : string) : Response :=
  {| body := {| success := true; error := None; token := Some t; valid := None |};
     status := 200 |}.

(** *** State and exceptions *)

Inductive outcome (A : Type) : Type :=
| Returned (a : A)
| Thrown.
Arguments Returned {A} a.
Arguments Thrown {A}.

Definition M (A : Type) : Type := Server -> outcome A * Server.

Definition ret {A} (a : A) : M A := fun s => (Returned a, s).
Definition throw {A} : M A := fun s => (Thrown, s).
Definition bind {A B} (m : M A) (k : A -> M B) : M B :=
  fun s =>
    match m s with
    | (Returned a, s') => k a s'
    | (Thrown, s') => (Thrown, s')
    end.
(** [try { m } catch { h }]: what [m] did to the state stays done. *)
Definition try_catch {A} (m : M A) (h : M A) : M A :=
  fun s =>
    match m s with
    | (Returned a, s') => (Returned a, s')
    | (Thrown, s') => h s'
    end.

Notation "'do' x <- m ; k" := (bind m (fun x => k))
  (at level 10, x name, m at level 100, k at level 200).
Notation "'run' m ; k" := (bind m (fun _ => k))
  (at level 10, m at level 100, k at level 200).

Definition of_option {A} (o : option A) : M A :=
  match o with
  | Some a => ret a
  | None => throw
  end.

Definition tokenStore_get (h : string) : M (option TokenData) :=
  fun s => (Returned (tokenStore s !! h), s).

Definition tokenStore_set (h : string) (d : TokenData) : M unit :=
  fun s => (Returned tt,
            {| tokenStore := <[h := d]> (tokenStore s);
               clockReads := clockReads s; entropyReads := entropyReads s |}).

Definition tokenStore_delete (h : string) : M unit :=
  fun s => (Returned tt,
            {| tokenStore := delete h (tokenStore s);
               clockReads := clockReads s; entropyReads := entropyReads s |}).

Definition octet_value (b : Byte.byte) : Z := Z.of_N (Byte.to_N b).

Definition expiresIn : Z := 24 * 60 * 60 * 1000.

Definition createTokenHash (token : string) : string := sha256_hex token.

(** [hash.update(x)] takes a string (or a buffer, which [JSON.parse]
    never yields) and throws a TypeError on anything else. *)
Definition hash_input (x : jsval) : M string :=
  match x with
  | Some (JString s) => ret s
  | _ => throw
  end.

Section WithHost.
Variable host : Host.

Definition Date_now : M Z :=
  fun s => (Returned (clock host (clockReads s)),
            {| tokenStore := tokenStore s;
               clockReads := S (clockReads s); entropyReads := entropyReads s |}).

(** The [n] octets the generator hands out next. *)
Definition next_octets (s : Server) (n : nat) : list Byte.byte :=
  map (fun i => entropy host (entropyReads s + i)%nat) (seq 0 n).

Definition randomBytes (n : nat) : M (list Byte.byte) :=
  fun s => (Returned (next_octets s n),
            {| tokenStore := tokenStore s;
               clockReads := clockReads s; entropyReads := (entropyReads s + n)%nat |}).

Definition generateToken : M string :=
  do buf <- randomBytes 32;
  ret (Hex.encode (map octet_value buf)).

(** The interval callback: one pass over the entries, deleting the
    expired ones from the map being walked. *)
Definition sweep_entries (now : Z) (store : gmap string TokenData)
  : gmap string TokenData :=
  map_fold (fun tokenHash data acc =>
              if expiresAt data <? now then delete tokenHash acc else acc)
           store store.

Definition sweep (s : Server) : Server :=
  let now := clock host (clockReads s) in
  {| tokenStore := sweep_entries now (tokenStore s);
     clockReads := S (clockReads s); entropyReads := entropyReads s |}.

Definition correctPassword : string := or_else (APP_PASSWORD host) "demo123".

(** The statements of the source's [POST], with the constant declared at
    line 117 taken as a binding of its own (see [POST] below for the text
    as shipped). [request] is what [request.json()] resolves to, [None]
    when the body is not JSON and the call rejects. *)
Definition handler (request : option json) : M Response :=
  try_catch
    (do parsed <- of_option request;
     do fields <- of_option (destructure parsed);
     let '(password, token) := fields in
     if truthy token then
       do token <- hash_input token;
       let tokenHash := createTokenHash token in
       do tokenData <- tokenStore_get tokenHash;
       match tokenData with
       | None => ret (failure "Invalid token" 401)
       | Some tokenData =>
           do now <- Date_now;
           if expiresAt tokenData <? now then
             run tokenStore_delete tokenHash;
             ret (failure "Token expired" 401)
           else
             do now <- Date_now;
             run tokenStore_set tokenHash
                   {| expiresAt := now + expiresIn; createdAt := createdAt tokenData |};
             ret token_valid
       end
     else if negb (truthy password) then
       ret (failure "Password is required" 400)
     else if negb (strict_eq_string password correctPassword) then
       ret (failure "Incorrect password" 401)
     else
       do token <- generateToken;
       let tokenHash := createTokenHash token in
       do expires <- Date_now;
       do created <- Date_now;
       run tokenStore_set tokenHash
             {| expiresAt := expires + expiresIn; createdAt := created |};
       ret (token_issued token))
    (ret (failure "Invalid request" 400)).



End WithHost.

(** *** The route as shipped

    [handler] has the statements of the source's [POST], but the source
    declares [token] twice with [const] directly in the [try] block: at
    line 69, in the destructuring of the request body, and at line 117, for
    the generated token. A block must not declare a lexical name twice:
    the text is rejected before any of it runs (SyntaxError: Identifier
    'token' has already been declared; TS2451 when compiled), the module
    does not load, and no request is answered by it. [handler] reads the
    declaration of line 117 as a binding of its own, the way the uses
    below it (lines 118 and 128) take it; [POST] is what the text as it
    stands evaluates to. *)

Inductive evaluation (A : Type) : Type :=
| SyntaxError (name : string) (line : Z)
| Evaluated (a : A).
Arguments SyntaxError {A} name line.
Arguments Evaluated {A} a.

(** The names declared with [const] in the two blocks of the function,
    each with the line of its declaration: the [try] block, and the block
    of [if (token)]. *)
Definition try_block : list (string * Z) :=
  [("password"%string, 69); ("token"%string, 69); ("correctPassword"%string, 107);
   ("token"%string, 117); ("tokenHash"%string, 118); ("expiresIn"%string, 119)].

Definition token_block : list (string * Z) :=
  [("tokenHash"%string, 73); ("tokenData"%string, 74); ("expiresIn"%string, 92)].

(** The first declaration that repeats a name already declared in its
    block. *)
Fixpoint redeclared (seen : list string) (declarations : list (string * Z))
  : option (string * Z) :=
  match declarations with
  | [] => None
  | (name, line) :: rest =>
      if existsb (String.eqb name) seen then Some (name, line)
      else redeclared (name :: seen) rest
  end.

Definition early_error : option (string * Z) :=
  match redeclared [] try_block with
  | Some e => Some e
  | None => redeclared [] token_block
  end.

Definition POST : evaluation (Host -> option json -> M Response) :=
  match early_error with
  | Some (name, line) => SyntaxError name line
  | None => Evaluated handler
  end.

(** What a request gets from the route, and the state it leaves: nothing,
    when there is no [POST] to call. *)
Definition answer (host : Host) (request : option json) (s : Server)
  : option (Response * Server) :=
  match POST with
  | Evaluated serve =>
      match serve host request s with
      | (Returned r, s') => Some (r, s')
      | (Thrown, _) => None
      end
  | SyntaxError _ _ => None
  end.


(** The test of the sweep and of the token branch, [data.expiresAt < now],
    on an entry of the store. *)
Definition expired (now : Z) (entry : string * TokenData) : Prop :=
  expiresAt entry.2 < now.

#[global] Instance expired_dec now entry : Decision (expired now entry).
Proof. unfold expired. apply _. Defined.


End Route.

(** ** The client session manager (the context provider) *)

Module Context.

Definition truthy_string (o : option string) : bool :=
  match o with
  | Some s => negb (String.eqb s "")
  | None => false
  end.

Section WithApp.
(** The embedding application, which the two callbacks act on. *)
Context {App : Type}.

(** The options the provider reads; the display options (title, logo,
    class names, ...) are only rendered. *)
Record PasswordProtectConfig := {
  password : option string;
  apiEndpoint : option string;
  onSuccess : option (App -> App);
  onError : option (App -> App);
  storageKey : option string;
  persistAuth : option bool
}.

(** One mounted provider in its page: [window_defined] is
    [typeof window !== 'undefined']. *)
Record Browser := {
  window_defined : bool;
  localStorage : gmap string string;
  isAuthenticated : bool;
  isVerifying : bool;
  app : App
}.

Definition mounted (window : bool) (storage : gmap string string) (a : App) : Browser :=
  {| window_defined := window; localStorage := storage;
     isAuthenticated := false; isVerifying := true; app := a |}.

Definition setIsAuthenticated (v : bool) (b : Browser) : Browser :=
  {| window_defined := window_defined b; localStorage := localStorage b;
     isAuthenticated := v; isVerifying := isVerifying b; app := app b |}.

Definition setIsVerifying (v : bool) (b : Browser) : Browser :=
  {| window_defined := window_defined b; localStorage := localStorage b;
     isAuthenticated := isAuthenticated b; isVerifying := v; app := app b |}.

Definition localStorage_setItem (k v : string) (b : Browser) : Browser :=
  {| window_defined := window_defined b; localStorage := <[k := v]> (localStorage b);
     isAuthenticated := isAuthenticated b; isVerifying := isVerifying b; app := app b |}.

Definition localStorage_removeItem (k : string) (b : Browser) : Browser :=
  {| window_defined := window_defined b; localStorage := delete k (localStorage b);
     isAuthenticated := isAuthenticated b; isVerifying := isVerifying b; app := app b |}.

(** [callback?.()] *)
Definition call (callback : option (App -> App)) (b : Browser) : Browser :=
  match callback with
  | Some f =>
      {| window_defined := window_defined b; localStorage := localStorage b;
         isAuthenticated := isAuthenticated b; isVerifying := isVerifying b;
         app := f (app b) |}
  | None => b
  end.

Section Provider.
Variable config : PasswordProtectConfig.
(** [fetch(endpoint, {method: 'POST', body})] followed by
    [response.json()]: the reply's data, or [None] when either
    rejects. *)
Variable fetch : string -> json -> option Route.ResponseBody.

Definition the_storageKey : string := or_else (storageKey config) "password-protect-auth".

(** [config.persistAuth !== false] *)
Definition the_persistAuth : bool :=
  match persistAuth config with
  | Some false => false
  | _ => true
  end.

Definition the_apiEndpoint : string := or_else (apiEndpoint config) "/api/auth/verify".

Definition verifyStoredToken (b : Browser) : Browser :=
  if negb the_persistAuth || negb (window_defined b) then setIsVerifying false b
  else
    match localStorage b !! the_storageKey with
    | Some storedToken =>
        if String.eqb storedToken "" then setIsVerifying false b
        else
          match fetch the_apiEndpoint (JObject [("token"%string, JString storedToken)]) with
          | Some data =>
              if Route.success data && bool_decide (Route.valid data = Some true) then
                setIsVerifying false (setIsAuthenticated true b)
              else
                setIsVerifying false
                  (setIsAuthenticated false (localStorage_removeItem the_storageKey b))
          | None =>
              setIsVerifying false
                (setIsAuthenticated false (localStorage_removeItem the_storageKey b))
          end
    | None => setIsVerifying false b
    end.

Definition authenticate (p : string) (b : Browser) : bool * Browser :=
  if truthy_string (password config) then
    if bool_decide (Some p = password config) then
      let b := if the_persistAuth && window_defined b
               then localStorage_setItem the_storageKey "authenticated" b
               else b in
      let b := setIsAuthenticated true b in
      let b := call (onSuccess config) b in
      (true, b)
    else
      (false, call (onError config) b)
  else
    match fetch the_apiEndpoint (JObject [("password"%string, JString p)]) with
    | Some data =>
        if Route.success data && truthy_string (Route.token data) then
          let b := if the_persistAuth && window_defined b
                   then localStorage_setItem the_storageKey
                          (default ""%string (Route.token data)) b
                   else b in
          let b := setIsAuthenticated true b in
          let b := call (onSuccess config) b in
          (true, b)
        else
          (false, call (onError config) b)
    | None => (false, call (onError config) b)
    end.

Definition logout (b : Browser) : Browser :=
  let b := setIsAuthenticated false b in
  if the_persistAuth && window_defined b
  then localStorage_removeItem the_storageKey b
  else b.

End Provider.
End WithApp.

Arguments PasswordProtectConfig : clear implicits.
Arguments Browser : clear implicits.

End Context.

(** ** Sample data for the worked examples *)

Module Sample.
Import Route.

Definition octet_of_nat (k : nat) : Byte.byte :=
  match Byte.of_N (N.of_nat ((k * 37 + 11) mod 256)) with
  | Some b => b
  | None => Byte.x00
  end.

(** No [APP_PASSWORD] (so the secret is the fallback), a clock that
    advances one millisecond per read, and a fixed octet sequence. *)
Definition host : Host :=
  {| APP_PASSWORD := None;
     clock := fun k => 1700000000000 + Z.of_nat k;
     entropy := octet_of_nat |}.

Definition password_request (p : string) : json :=
  JObject [("password"%string, JString p)].

Definition token_request (t : string) : json :=
  JObject [("token"%string, JString t)].


Definition a_token : string := "5f3c".

(** A store holding one record for [a_token]. *)
Definition holding (expires : Z) : Server :=
  {| tokenStore := {[ createTokenHash a_token :=
                        {| expiresAt := expires; createdAt := 1600000000000 |} ]};
     clockReads := 0; entropyReads := 0 |}.

(** Two expired records and one live one, at the clock's first reading. *)
Definition mixed : Server :=
  {| tokenStore :=
       <[createTokenHash "a" := {| expiresAt := 1699999999999; createdAt := 1 |}]>
       (<[createTokenHash "b" := {| expiresAt := 1700000000000; createdAt := 2 |}]>
       (<[createTokenHash "c" := {| expiresAt := 5; createdAt := 3 |}]> ∅));
     clockReads := 0; entropyReads := 0 |}.

Definition counting_config (secret : option string) : Context.PasswordProtectConfig (nat * nat) :=
  {| Context.password := secret;
     Context.apiEndpoint := None;
     Context.onSuccess := Some (fun c => (S c.1, c.2));
     Context.onError := Some (fun c => (c.1, S c.2));
     Context.storageKey := None;
     Context.persistAuth := None |}.

Definition offline : string -> json -> option ResponseBody := fun _ _ => None.

End Sample.

(** ** The route behind the client *)

Module Process.
Import Route.

(** [fetch(apiEndpoint, {method: 'POST', body: JSON.stringify(payload)})]
    then [response.json()], for an endpoint that answers as the route's
    [handler] does in state [s]. *)
Definition endpoint (host : Host) (s : Server) : string -> json -> option ResponseBody :=
  fun _ payload =>
    match handler host (Some payload) s with
    | (Returned r, _) => Some (body r)
    | (Thrown, _) => None
    end.

End Process.

(** ** The inverse of the hex encoding *)

Module Unhex.

Definition value (c : ascii) : option Z :=
  let n := Z.of_N (N_of_ascii c) in
  if (48 <=? n) && (n <=? 57) then Some (n - 48)
  else if (97 <=? n) && (n <=? 102) then Some (n - 87)
  else None.

Fixpoint decode (s : string) : option (list Z) :=
  match s with
  | EmptyString => Some []
  | String hi (String lo rest) =>
      match value hi, value lo, decode rest with
      | Some h, Some l, Some bs => Some (16 * h + l :: bs)
      | _, _, _ => None
      end
  | String _ EmptyString => None
  end.

End Unhex.

(** ** What the provider finds on mount *)

Module Mounting.
Section WithApp.
Context {App : Type}.
Variable config : Context.PasswordProtectConfig App.
Variable fetch : string -> json -> option Route.ResponseBody.

(** The provider reads the stored token: persistence is on, there is a
    window, and a non-empty string is stored under the key. *)
Definition reads (b : Context.Browser App) (stored : string) : Prop :=
  Context.the_persistAuth config = true
  /\ Context.window_defined b = true
  /\ Context.localStorage b !! Context.the_storageKey config = Some stored
  /\ stored <> ""%string.

(** The endpoint confirms the stored token: its reply to [{token}]
    reports success and validity. *)
Definition confirmed (stored : string) : Prop :=
  exists data,
    fetch (Context.the_apiEndpoint config) (JObject [("token"%string, JString stored)])
      = Some data
    /\ Route.success data = true /\ Route.valid data = Some true.

End WithApp.
End Mounting.

(** ** The password form and the wrapper *)

Module Form.

(** The local state of the [PasswordProtect] component. *)
Record State := { password : string; error : bool; isSubmitting : bool }.

Definition initial : State :=
  {| password := ""; error := false; isSubmitting := false |}.

(** The input's [onChange]. *)
Definition onChange (typed : string) (f : State) : State :=
  {| password := typed; error := false; isSubmitting := isSubmitting f |}.

Section WithApp.
Context {App : Type}.
Variable config : Context.PasswordProtectConfig App.
Variable fetch : string -> json -> option Route.ResponseBody.

Definition handleSubmit (f : State) (b : Context.Browser App)
  : State * Context.Browser App :=
  let f := {| password := password f; error := false; isSubmitting := true |} in
  let '(isValid, b) := Context.authenticate config fetch (password f) b in
  let f := if isValid then f
           else {| password := ""; error := true; isSubmitting := isSubmitting f |} in
  ({| password := password f; error := error f; isSubmitting := false |}, b).

End WithApp.

(** The paragraph under the input: [config.errorMessage] or the default
    text, rendered while [error] is set. *)
Definition shown_error (errorMessage : option string) (f : State) : option string :=
  if error f then Some (or_else errorMessage "Incorrect password. Please try again.")
  else None.

End Form.

Module Wrapper.

Inductive View : Type :=
| Spinner
| PasswordForm
| Children.

(** What [PasswordProtectWrapper] puts on the page: the provider's
    spinner while verifying, then [ProtectedContent]'s choice. *)
Definition render {App : Type} (b : Context.Browser App) : View :=
  if Context.isVerifying b then Spinner
  else if Context.isAuthenticated b then Children
  else PasswordForm.

End Wrapper.

(** ** More sample data *)

Module Scenario.
Import Route.

Definition remote_config : Context.PasswordProtectConfig (nat * nat) :=
  Sample.counting_config None.

Definition page : Context.Browser (nat * nat) :=
  Context.mounted true ∅ (0%nat, 0%nat).

End Scenario.

(** * Properties *)

Import Route.

(** ** The primitives on known inputs *)

Example sha256_abc :
  sha256_hex "abc" =
  "ba7816bf8f01cfea414140de5dae2223b00361a396177a9cb410ff61f20015ad"%string.
Proof. vm_compute. reflexivity. Qed.

Example sha256_empty :
  sha256_hex "" =
  "e3b0c44298fc1c149afbf4c8996fb92427ae41e4649b934ca495991b7852b855"%string.
Proof. vm_compute. reflexivity. Qed.

Example sha256_two_blocks :
  sha256_hex "abcdbcdecdefdefgefghfghighijhijkijkljklmklmnlmnomnopnopq" =
  "248d6a61d20638b8e5c026930c3e6039a33ce45964ff2167f6ecedd419db06c1"%string.
Proof. vm_compute. reflexivity. Qed.

(** ** Hex encoding *)

Lemma encode_length (bs : list Z) :
  String.length (Hex.encode bs) = (2 * length bs)%nat.
Proof. induction bs as [|b bs IH]; simpl; [reflexivity | rewrite IH; lia]. Qed.

Lemma octet_digits (b : Byte.byte) :
  Hex.is_digit (Hex.digit (Z.shiftr (octet_value b) 4))
  && Hex.is_digit (Hex.digit (Z.land (octet_value b) 15)) = true.
Proof. destruct b; vm_compute; reflexivity. Qed.

Lemma encode_digits (buf : list Byte.byte) :
  Hex.all_digits (Hex.encode (map octet_value buf)) = true.
Proof.
  induction buf as [|b buf IH]; [reflexivity|].
  pose proof (octet_digits b) as Hb. apply andb_prop in Hb as [Hhi Hlo].
  cbn [map Hex.encode Hex.octet Hex.all_digits]. by rewrite Hhi, Hlo, IH.
Qed.

Lemma next_octets_length (host : Host) (s : Server) (n : nat) :
  length (next_octets host s n) = n.
Proof. unfold next_octets. by rewrite length_map, length_seq. Qed.

(** ** Coercions *)

Lemma truthy_JString (t : string) :
  truthy (Some (JString t)) = true <-> t <> ""%string.
Proof. simpl. destruct (String.eqb_spec t ""); simpl; split; congruence. Qed.

Lemma or_else_nonempty (a : option string) (b : string) :
  b <> ""%string -> or_else a b <> ""%string.
Proof.
  intros Hb. unfold or_else. destruct a as [x|]; [|done].
  by destruct (String.eqb_spec x "").
Qed.

(** The secret the handler compares with is never the empty string. *)
Lemma correctPassword_nonempty (host : Host) : correctPassword host <> ""%string.
Proof. by apply or_else_nonempty. Qed.

Lemma strict_eq_string_true (x : jsval) (s : string) :
  strict_eq_string x s = true <-> x = Some (JString s).
Proof.
  destruct x as [[]|]; simpl; try (split; congruence).
  destruct (String.eqb_spec s0 s); split; congruence.
Qed.

(** ** The sweep *)

Lemma sweep_fold_lookup (now : Z) (b m : gmap string TokenData) (k : string) :
  map_fold (fun tokenHash data acc =>
              if expiresAt data <? now then delete tokenHash acc else acc) b m !! k
  = match m !! k with
    | Some d => if expiresAt d <? now then None else b !! k
    | None => b !! k
    end.
Proof.
  revert k.
  apply (map_fold_weak_ind
           (fun r m => forall k, r !! k = match m !! k with
                                  | Some d => if expiresAt d <? now then None else b !! k
                                  | None => b !! k
                                  end)).
  - intros k. by rewrite lookup_empty.
  - intros i x m' r Hi IH k.
    destruct (decide (i = k)) as [->|Hne].
    + rewrite lookup_insert_eq. specialize (IH k). rewrite Hi in IH.
      destruct (expiresAt x <? now); [apply lookup_delete_eq | exact IH].
    + rewrite lookup_insert_ne by done.
      destruct (expiresAt x <? now); [rewrite lookup_delete_ne by done|]; apply IH.
Qed.

Lemma sweep_entries_lookup (now : Z) (store : gmap string TokenData) (k : string) :
  sweep_entries now store !! k
  = match store !! k with
    | Some d => if expiresAt d <? now then None else Some d
    | None => None
    end.
Proof.
  unfold sweep_entries. rewrite sweep_fold_lookup.
  destruct (store !! k) eqn:E; by rewrite ?E.
Qed.

Lemma sweep_entries_filter (now : Z) (store : gmap string TokenData) :
  sweep_entries now store = filter (fun entry => ¬ expired now entry) store.
Proof.
  apply map_eq. intros k. rewrite sweep_entries_lookup. unfold expired.
  destruct (store !! k) as [d|] eqn:E.
  - destruct (Z.ltb_spec (expiresAt d) now).
    + symmetry. apply map_lookup_filter_None. right. intros d' Hd'. simpl. naive_solver.
    + symmetry. apply map_lookup_filter_Some. simpl. split; [done | lia].
  - symmetry. apply map_lookup_filter_None. by left.
Qed.

Lemma size_expired_live (now : Z) (store : gmap string TokenData) :
  size store
  = (size (filter (expired now) store)
     + size (filter (fun entry => ¬ expired now entry) store))%nat.
Proof.
  rewrite <- map_size_disj_union by apply map_disjoint_filter_complement.
  by rewrite map_filter_union_complement.
Qed.

(** ** The paths through [handler] *)

Section Paths.
Variable host : Host.
Implicit Types (s : Server) (body : json) (pw tok : jsval).

Ltac enter_handler Hd :=
  unfold handler, try_catch, bind, of_option, ret; rewrite Hd; cbv beta iota.

Lemma handler_not_json s :
  handler host None s = (Returned (failure "Invalid request" 400), s).
Proof. reflexivity. Qed.

Lemma handler_not_destructurable s body :
  destructure body = None ->
  handler host (Some body) s = (Returned (failure "Invalid request" 400), s).
Proof. intros Hd. enter_handler Hd. reflexivity. Qed.

Lemma handler_token_not_string s body pw tok :
  destructure body = Some (pw, tok) -> truthy tok = true ->
  (forall t, tok <> Some (JString t)) ->
  handler host (Some body) s = (Returned (failure "Invalid request" 400), s).
Proof.
  intros Hd Ht Hn. enter_handler Hd. rewrite Ht.
  destruct tok as [[| | |t| |]|]; try reflexivity. by destruct (Hn t).
Qed.

Lemma handler_password_required s body pw tok :
  destructure body = Some (pw, tok) -> truthy tok = false -> truthy pw = false ->
  handler host (Some body) s = (Returned (failure "Password is required" 400), s).
Proof. intros Hd Ht Hp. enter_handler Hd. rewrite Ht, Hp. reflexivity. Qed.

Lemma handler_password_incorrect s body pw tok :
  destructure body = Some (pw, tok) -> truthy tok = false -> truthy pw = true ->
  strict_eq_string pw (correctPassword host) = false ->
  handler host (Some body) s = (Returned (failure "Incorrect password" 401), s).
Proof. intros Hd Ht Hp He. enter_handler Hd. rewrite Ht, Hp, He. reflexivity. Qed.

Lemma handler_password_correct s body pw tok :
  destructure body = Some (pw, tok) -> truthy tok = false -> truthy pw = true ->
  strict_eq_string pw (correctPassword host) = true ->
  let t := Hex.encode (map octet_value (next_octets host s 32)) in
  handler host (Some body) s =
    (Returned (token_issued t),
     {| tokenStore :=
          <[createTokenHash t :=
              {| expiresAt := clock host (clockReads s) + expiresIn;
                 createdAt := clock host (S (clockReads s)) |}]> (tokenStore s);
        clockReads := S (S (clockReads s));
        entropyReads := (entropyReads s + 32)%nat |}).
Proof. intros Hd Ht Hp He. enter_handler Hd. rewrite Ht, Hp, He. reflexivity. Qed.

Lemma handler_token_unknown s body pw t :
  destructure body = Some (pw, Some (JString t)) -> t <> ""%string ->
  tokenStore s !! createTokenHash t = None ->
  handler host (Some body) s = (Returned (failure "Invalid token" 401), s).
Proof.
  intros Hd Ht Hl. apply truthy_JString in Ht. enter_handler Hd. rewrite Ht.
  unfold hash_input, ret, tokenStore_get. rewrite Hl. reflexivity.
Qed.

Lemma handler_token_expired s body pw t d :
  destructure body = Some (pw, Some (JString t)) -> t <> ""%string ->
  tokenStore s !! createTokenHash t = Some d ->
  expiresAt d < clock host (clockReads s) ->
  handler host (Some body) s =
    (Returned (failure "Token expired" 401),
     {| tokenStore := delete (createTokenHash t) (tokenStore s);
        clockReads := S (clockReads s);
        entropyReads := entropyReads s |}).
Proof.
  intros Hd Ht Hl Hx. apply truthy_JString in Ht. enter_handler Hd. rewrite Ht.
  unfold hash_input, ret, tokenStore_get. rewrite Hl.
  unfold Date_now. cbv beta iota.
  apply Z.ltb_lt in Hx. rewrite Hx. reflexivity.
Qed.

Lemma handler_token_fresh s body pw t d :
  destructure body = Some (pw, Some (JString t)) -> t <> ""%string ->
  tokenStore s !! createTokenHash t = Some d ->
  clock host (clockReads s) <= expiresAt d ->
  handler host (Some body) s =
    (Returned token_valid,
     {| tokenStore :=
          <[createTokenHash t :=
              {| expiresAt := clock host (S (clockReads s)) + expiresIn;
                 createdAt := createdAt d |}]> (tokenStore s);
        clockReads := S (S (clockReads s));
        entropyReads := entropyReads s |}).
Proof.
  intros Hd Ht Hl Hx. apply truthy_JString in Ht. enter_handler Hd. rewrite Ht.
  unfold hash_input, ret, tokenStore_get. rewrite Hl.
  unfold Date_now. cbv beta iota.
  apply Z.ltb_ge in Hx. rewrite Hx. reflexivity.
Qed.

(** The handler never lets an exception out: every call answers. *)
Lemma handler_answers request s :
  exists r s', handler host request s = (Returned r, s').
Proof.
  destruct request as [body|]; [|rewrite handler_not_json; eauto].
  destruct (destructure body) as [[pw tok]|] eqn:Hd;
    [|rewrite (handler_not_destructurable _ _ Hd); eauto].
  destruct (truthy tok) eqn:Ht.
  - destruct tok as [[| | |t| |]|];
      try (erewrite handler_token_not_string by (done || eauto); eauto; fail).
    apply truthy_JString in Ht.
    destruct (tokenStore s !! createTokenHash t) as [d|] eqn:Hl;
      [|erewrite handler_token_unknown by done; eauto].
    destruct (Z.lt_ge_cases (expiresAt d) (clock host (clockReads s))).
    + erewrite handler_token_expired by done. eauto.
    + erewrite handler_token_fresh by done. eauto.
  - destruct (truthy pw) eqn:Hp;
      [|erewrite handler_password_required by done; eauto].
    destruct (strict_eq_string pw (correctPassword host)) eqn:He.
    + erewrite handler_password_correct by done. eauto.
    + erewrite handler_password_incorrect by done. eauto.
Qed.

End Paths.


(** ** Token generation and hashing *)

Lemma expiresIn_ms : expiresIn = 86400000.
Proof. reflexivity. Qed.

Lemma createTokenHash_sha256 (t : string) : createTokenHash t = sha256_hex t.
Proof. reflexivity. Qed.

Lemma generateToken_run (host : Host) (s : Server) :
  generateToken host s =
    (Returned (Hex.encode (map octet_value (next_octets host s 32))),
     {| tokenStore := tokenStore s; clockReads := clockReads s;
        entropyReads := (entropyReads s + 32)%nat |}).
Proof. reflexivity. Qed.

Lemma generateToken_length (host : Host) (s : Server) :
  String.length (Hex.encode (map octet_value (next_octets host s 32))) = 64%nat.
Proof. rewrite encode_length, length_map, next_octets_length. reflexivity. Qed.

Lemma handler_issue (host : Host) (s : Server) (body : json) (tok : jsval) :
  destructure body = Some (Some (JString (correctPassword host)), tok) ->
  truthy tok = false ->
  handler host (Some body) s =
    (Returned (token_issued (Hex.encode (map octet_value (next_octets host s 32)))),
     {| tokenStore :=
          <[createTokenHash (Hex.encode (map octet_value (next_octets host s 32))) :=
              {| expiresAt := clock host (clockReads s) + 86400000;
                 createdAt := clock host (S (clockReads s)) |}]> (tokenStore s);
        clockReads := S (S (clockReads s));
        entropyReads := (entropyReads s + 32)%nat |}).
Proof.
  intros Hd Ht.
  assert (Hp : truthy (Some (JString (correctPassword host))) = true)
    by apply truthy_JString, correctPassword_nonempty.
  assert (He : strict_eq_string (Some (JString (correctPassword host)))
                 (correctPassword host) = true)
    by by apply strict_eq_string_true.
  exact (handler_password_correct host s body _ tok Hd Ht Hp He).
Qed.

(** ** The route as shipped *)

(** The second [const token], at line 117, is the early error. *)
Lemma POST_redeclares_token : POST = SyntaxError "token" 117.
Proof. vm_compute. reflexivity. Qed.

(** The declaration of line 117 is the only one in the way: under any
    other name the blocks declare each name once. *)
Lemma only_token_is_redeclared :
  redeclared [] (filter (fun d => d.2 ≠ 117) try_block) = None
  /\ redeclared [] token_block = None.
Proof. split; vm_compute; reflexivity. Qed.

(** So the route answers no request and changes no state. *)
Lemma answer_nothing (host : Host) (request : option json) (s : Server) :
  answer host request s = None.
Proof. unfold answer. by rewrite POST_redeclares_token. Qed.

(** ** Issuing a token *)

(** C1. The route as shipped issues no token: [POST] is the early error
    of line 117, and a request with the right password gets no answer and
    leaves no record. The statements of the function are as the claim has
    them: on a password field equal to the configured secret and no token
    field (any falsy token behaves the same) the handler draws 32 octets
    from the generator, hex-encodes them into the plaintext token (64 hex
    characters), inserts under the SHA-256 hex digest of that token a
    record with [expiresAt = Date.now() + 24h] and
    [createdAt = Date.now()], and answers
    [{success: true, token}] with status 200. The two fields are filled
    from two consecutive readings of the clock, [expiresAt] first. *)
Theorem issue_on_correct_password (host : Host) (s : Server) (body : json) (tok : jsval) :
  POST = SyntaxError "token" 117
  /\ answer host (Some body) s = None
  /\ (destructure body = Some (Some (JString (correctPassword host)), tok) ->
      truthy tok = false ->
      let octets := next_octets host s 32 in
      let t := Hex.encode (map octet_value octets) in
      length octets = 32%nat
      /\ generateToken host s =
           (Returned t,
            {| tokenStore := tokenStore s; clockReads := clockReads s;
               entropyReads := (entropyReads s + 32)%nat |})
      /\ String.length t = 64%nat
      /\ Hex.all_digits t = true
      /\ createTokenHash t = sha256_hex t
      /\ handler host (Some body) s =
           (Returned
              {| Route.body :=
                   {| success := true; error := None; token := Some t; valid := None |};
                 status := 200 |},
            {| tokenStore :=
                 <[sha256_hex t :=
                     {| expiresAt := clock host (clockReads s) + 86400000;
                        createdAt := clock host (S (clockReads s)) |}]> (tokenStore s);
               clockReads := S (S (clockReads s));
               entropyReads := (entropyReads s + 32)%nat |})).
Proof.
  split; [exact POST_redeclares_token|]. split; [apply answer_nothing|].
  intros Hd Ht. cbv zeta.
  pose proof (handler_issue host s body tok Hd Ht) as Hhandler.
  unfold token_issued in Hhandler. rewrite createTokenHash_sha256 in Hhandler.
  exact (conj (next_octets_length host s 32)
           (conj (generateToken_run host s)
              (conj (generateToken_length host s)
                 (conj (encode_digits (next_octets host s 32))
                    (conj (createTokenHash_sha256 _) Hhandler))))).
Qed.

Lemma issue_on_correct_password_witness :
  destructure (Sample.password_request "demo123")
    = Some (Some (JString (correctPassword Sample.host)), None)
  /\ truthy None = false
  /\ answer Sample.host (Some (Sample.password_request "demo123")) boot = None
  /\ handler Sample.host (Some (Sample.password_request "demo123")) boot =
       (Returned
          {| Route.body :=
               {| success := true; error := None;
                  token :=
                    Some "0b30557a9fc4e90e33587da2c7ec11365b80a5caef14395e83a8cdf2173c6186"%string;
                  valid := None |};
             status := 200 |},
        {| tokenStore :=
             {[ "e60284d2fb9634efd021261ce2e5e9f5730de6e24ad625dc1868e9e23e3221bf"%string
                  := {| expiresAt := 1700086400000; createdAt := 1700000000001 |} ]};
           clockReads := 2; entropyReads := 32 |}).
Proof.
  split; [reflexivity|]. split; [reflexivity|].
  destruct (issue_on_correct_password Sample.host boot
              (Sample.password_request "demo123") None)
    as (_ & Hshipped & Hwritten).
  split; [exact Hshipped|].
  destruct (Hwritten eq_refl eq_refl) as (_ & _ & _ & _ & _ & Hhandler).
  rewrite Hhandler. vm_compute. reflexivity.
Defined.

(** ** Verifying a token *)



(** C3. The route as shipped rejects no token: [POST] is the early error
    of line 117, and a request with an unknown or expired token gets no
    answer, neither before nor after a sweep. The statements of the
    function are as the claim has them: a submitted token whose digest is
    missing from the store, or is there with [expiresAt < Date.now()], is
    answered with an unauthorized failure (status 401); in the second case
    the record is deleted as well. The check is made at lookup: the answer
    is a 401 whether the expired record is still in the store or the sweep
    has already removed it. *)
Theorem verify_rejects_unknown_or_expired (host : Host) (s : Server) (body : json)
    (pw : jsval) (t : string) :
  POST = SyntaxError "token" 117
  /\ answer host (Some body) s = None
  /\ answer host (Some body) (sweep host s) = None
  /\ (destructure body = Some (pw, Some (JString t)) ->
      t <> ""%string ->
      let h := createTokenHash t in
      let now := clock host (clockReads s) in
      (tokenStore s !! h = None
       \/ exists d, tokenStore s !! h = Some d /\ expiresAt d < now) ->
      match tokenStore s !! h with
      | None =>
          handler host (Some body) s = (Returned (failure "Invalid token" 401), s)
      | Some _ =>
          handler host (Some body) s =
            (Returned (failure "Token expired" 401),
             {| tokenStore := delete h (tokenStore s);
                clockReads := S (clockReads s);
                entropyReads := entropyReads s |})
          /\ delete h (tokenStore s) !! h = None
      end
      /\ handler host (Some body) (sweep host s)
         = (Returned (failure "Invalid token" 401), sweep host s)
      /\ status (failure "Invalid token" 401) = 401
      /\ status (failure "Token expired" 401) = 401
      /\ success (Route.body (failure "Invalid token" 401)) = false
      /\ success (Route.body (failure "Token expired" 401)) = false).
Proof.
  split; [exact POST_redeclares_token|]. do 2 (split; [apply answer_nothing|]).
  intros Hd Ht h now Hcase.
  cut (match tokenStore s !! h with
       | None =>
           handler host (Some body) s = (Returned (failure "Invalid token" 401), s)
       | Some _ =>
           handler host (Some body) s =
             (Returned (failure "Token expired" 401),
              {| tokenStore := delete h (tokenStore s);
                 clockReads := S (clockReads s);
                 entropyReads := entropyReads s |})
           /\ delete h (tokenStore s) !! h = None
       end
       /\ handler host (Some body) (sweep host s)
          = (Returned (failure "Invalid token" 401), sweep host s)).
  { intros (Hdirect & Hswept).
    exact (conj Hdirect (conj Hswept (conj eq_refl (conj eq_refl (conj eq_refl eq_refl))))). }
  split.
  - destruct Hcase as [Hl | (d & Hl & Hx)]; rewrite Hl.
    + by apply (handler_token_unknown host s body pw t).
    + split; [by apply (handler_token_expired host s body pw t d) | apply lookup_delete_eq].
  - apply (handler_token_unknown host (sweep host s) body pw t Hd Ht).
    cbn [sweep tokenStore]. rewrite sweep_entries_lookup. fold h. fold now.
    destruct Hcase as [Hl | (d & Hl & Hx)]; rewrite Hl; [done|].
    apply Z.ltb_lt in Hx. by rewrite Hx.
Qed.

Lemma verify_rejects_unknown_or_expired_witness :
  destructure (Sample.token_request Sample.a_token)
    = Some (None, Some (JString Sample.a_token))
  /\ Sample.a_token <> ""%string
  /\ (exists d, tokenStore (Sample.holding 5) !! createTokenHash Sample.a_token = Some d
                /\ expiresAt d < clock Sample.host 0)
  /\ answer Sample.host (Some (Sample.token_request Sample.a_token)) (Sample.holding 5) = None
  /\ handler Sample.host (Some (Sample.token_request Sample.a_token)) (Sample.holding 5)
     = (Returned (failure "Token expired" 401),
        {| tokenStore := ∅; clockReads := 1; entropyReads := 0 |})
  /\ handler Sample.host (Some (Sample.token_request Sample.a_token))
          (sweep Sample.host (Sample.holding 5))
     = (Returned (failure "Invalid token" 401),
        {| tokenStore := ∅; clockReads := 1; entropyReads := 0 |}).
Proof.
  assert (Hne : Sample.a_token <> ""%string) by discriminate.
  assert (Hl : tokenStore (Sample.holding 5) !! createTokenHash Sample.a_token
               = Some {| expiresAt := 5; createdAt := 1600000000000 |})
    by (vm_compute; reflexivity).
  assert (Hx : exists d, tokenStore (Sample.holding 5) !! createTokenHash Sample.a_token
                         = Some d /\ expiresAt d < clock Sample.host 0)
    by (eexists; split; [exact Hl | vm_compute; reflexivity]).
  split; [reflexivity|]. split; [exact Hne|]. split; [exact Hx|].
  destruct (verify_rejects_unknown_or_expired Sample.host (Sample.holding 5)
              (Sample.token_request Sample.a_token) None Sample.a_token)
    as (_ & Hshipped & _ & Hwritten).
  split; [exact Hshipped|].
  pose proof (Hwritten eq_refl Hne (or_intror Hx)) as H.
  cbv zeta in H. rewrite Hl in H. destruct H as ((Hdirect & _) & Hswept & _).
  split.
  - rewrite Hdirect. vm_compute. reflexivity.
  - rewrite Hswept. vm_compute. reflexivity.
Defined.

(** ** Wrong and missing passwords *)




(** ** Every answer of the handler *)


(** ** What the store holds *)














(** ** The periodic sweep *)

(** C6. One run of the interval callback, reading the clock once, leaves
    in the store exactly the records whose [expiresAt] is not before that
    reading, each unchanged: of [N] expired and [M] live records the [M]
    live ones remain. The result depends on the store and the clock alone,
    not on which records a request has looked at. *)
Theorem sweep_removes_exactly_expired (host : Host) (s : Server) (N M : nat) :
  let now := clock host (clockReads s) in
  size (filter (expired now) (tokenStore s)) = N ->
  size (filter (fun entry => ¬ expired now entry) (tokenStore s)) = M ->
  tokenStore (sweep host s) = filter (fun entry => ¬ expired now entry) (tokenStore s)
  /\ (forall h,
        tokenStore (sweep host s) !! h =
          match tokenStore s !! h with
          | Some d => if expiresAt d <? now then None else Some d
          | None => None
          end)
  /\ size (tokenStore s) = (N + M)%nat
  /\ size (tokenStore (sweep host s)) = M.
Proof.
  intros now HN HM. cbn [sweep tokenStore]. fold now.
  split; [apply sweep_entries_filter|]. split; [apply sweep_entries_lookup|]. split.
  - rewrite <- HN, <- HM. apply size_expired_live.
  - by rewrite sweep_entries_filter.
Qed.

Lemma sweep_removes_exactly_expired_witness :
  size (filter (expired (clock Sample.host 0)) (tokenStore Sample.mixed)) = 2%nat
  /\ size (filter (fun entry => ¬ expired (clock Sample.host 0) entry)
             (tokenStore Sample.mixed)) = 1%nat
  /\ size (tokenStore Sample.mixed) = 3%nat
  /\ size (tokenStore (sweep Sample.host Sample.mixed)) = 1%nat
  /\ tokenStore (sweep Sample.host Sample.mixed) !! createTokenHash "b"
     = Some {| expiresAt := 1700000000000; createdAt := 2 |}.
Proof.
  assert (HN : size (filter (expired (clock Sample.host 0)) (tokenStore Sample.mixed)) = 2%nat)
    by (vm_compute; reflexivity).
  assert (HM : size (filter (fun entry => ¬ expired (clock Sample.host 0) entry)
                       (tokenStore Sample.mixed)) = 1%nat)
    by (vm_compute; reflexivity).
  destruct (sweep_removes_exactly_expired Sample.host Sample.mixed 2 1 HN HM)
    as (_ & Hlookup & Hall & Hleft).
  split; [exact HN|]. split; [exact HM|]. split; [exact Hall|]. split; [exact Hleft|].
  rewrite Hlookup. vm_compute. reflexivity.
Defined.

(** ** Requests without credentials *)

(** C7. The route as shipped answers no body: [POST] is the early error
    of line 117, and the empty object gets no response, so not the 400
    either. The statements of the function are as the claim has them: a
    body with neither a [password] nor a [token] member, the empty object
    for one, is answered [{success: false, error: 'Password is
    required'}] with status 400, and the server state is untouched. *)
Theorem missing_fields_rejected (host : Host) (s : Server) (members : list (string * json)) :
  POST = SyntaxError "token" 117
  /\ answer host (Some (JObject members)) s = None
  /\ (member "password" members = None ->
      member "token" members = None ->
      handler host (Some (JObject members)) s
      = (Returned {| body := {| success := false; error := Some "Password is required"%string;
                                 token := None; valid := None |};
                     status := 400 |},
         s)).
Proof.
  split; [exact POST_redeclares_token|]. split; [apply answer_nothing|].
  intros Hp Ht.
  apply (handler_password_required host s (JObject members) None None); [|done..].
  cbn [destructure]. by rewrite Hp, Ht.
Qed.

Lemma missing_fields_rejected_witness :
  member "password" [] = None
  /\ member "token" [] = None
  /\ answer Sample.host (Some (JObject [])) (Sample.holding 5) = None
  /\ handler Sample.host (Some (JObject [])) (Sample.holding 5)
     = (Returned (failure "Password is required" 400), Sample.holding 5).
Proof.
  split; [reflexivity|]. split; [reflexivity|].
  destruct (missing_fields_rejected Sample.host (Sample.holding 5) [])
    as (_ & Hshipped & Hwritten).
  split; [exact Hshipped | exact (Hwritten eq_refl eq_refl)].
Defined.

(** The same answer for any parsed body that is not [null] and has
    neither property: numbers, strings, booleans and arrays. *)
Lemma no_fields_rejected (host : Host) (s : Server) (parsed : json) :
  destructure parsed = Some (None, None) ->
  handler host (Some parsed) s = (Returned (failure "Password is required" 400), s).
Proof. intros Hd. by apply (handler_password_required host s parsed None None). Qed.

(** A [null] body and a body that is not JSON end in the catch-all. *)
Lemma null_or_unparsable_rejected (host : Host) (s : Server) :
  handler host (Some JNull) s = (Returned (failure "Invalid request" 400), s)
  /\ handler host None s = (Returned (failure "Invalid request" 400), s).
Proof. split; reflexivity. Qed.

(** C10. The route as shipped answers no request, with an empty token or
    without one: [POST] is the early error of line 117, so [{token: ''}]
    gets no 400. The statements of the function are as the claim has them:
    an empty-string token is falsy, so the token branch is skipped and the
    request is answered as the same request without the token field is.
    With no password field that is [{success: false, error: 'Password is
    required'}] and status 400, the state untouched, and not the 401 of
    an invalid token. *)
Theorem empty_token_is_no_token (host : Host) (s : Server) (sent absent : json) (pw : jsval) :
  POST = SyntaxError "token" 117
  /\ answer host (Some sent) s = None
  /\ answer host (Some absent) s = None
  /\ (destructure sent = Some (pw, Some (JString "")) ->
      destructure absent = Some (pw, None) ->
      handler host (Some sent) s = handler host (Some absent) s
      /\ (truthy pw = false ->
          handler host (Some sent) s
          = (Returned {| body := {| success := false;
                                     error := Some "Password is required"%string;
                                     token := None; valid := None |};
                         status := 400 |},
             s)
          /\ handler host (Some sent) s <> (Returned (failure "Invalid token" 401), s))).
Proof.
  split; [exact POST_redeclares_token|]. do 2 (split; [apply answer_nothing|]).
  intros Hsent Habsent.
  assert (Hsame : handler host (Some sent) s = handler host (Some absent) s).
  { unfold handler, try_catch, bind, of_option, ret. rewrite Hsent, Habsent. reflexivity. }
  split; [exact Hsame|]. intros Hp.
  rewrite (handler_password_required host s sent pw (Some (JString "")) Hsent eq_refl Hp).
  split; [reflexivity | discriminate].
Qed.

Lemma empty_token_is_no_token_witness :
  destructure (Sample.token_request "") = Some (None, Some (JString ""))
  /\ destructure (JObject []) = Some (None, None)
  /\ answer Sample.host (Some (Sample.token_request "")) (Sample.holding 5) = None
  /\ handler Sample.host (Some (Sample.token_request "")) (Sample.holding 5)
     = handler Sample.host (Some (JObject [])) (Sample.holding 5)
  /\ handler Sample.host (Some (Sample.token_request "")) (Sample.holding 5)
     = (Returned (failure "Password is required" 400), Sample.holding 5).
Proof.
  split; [reflexivity|]. split; [reflexivity|].
  destruct (empty_token_is_no_token Sample.host (Sample.holding 5)
              (Sample.token_request "") (JObject []) None)
    as (_ & Hshipped & _ & Hwritten).
  split; [exact Hshipped|].
  destruct (Hwritten eq_refl eq_refl) as (Hsame & Hrequired).
  split; [exact Hsame | exact (proj1 (Hrequired eq_refl))].
Defined.

(** ** What a rejection says *)




(** ** The client session manager *)

Section Session.
Context {App : Type}.
Variable config : Context.PasswordProtectConfig App.
Variable fetch : string -> json -> option ResponseBody.
Implicit Types (b : Context.Browser App) (p : string).

(** In local-secret mode the network is not used. *)
Lemma authenticate_local p b secret :
  Context.password config = Some secret -> secret <> ""%string ->
  Context.authenticate config fetch p b =
    if bool_decide (p = secret) then
      (true,
       Context.call (Context.onSuccess config)
         (Context.setIsAuthenticated true
            (if Context.the_persistAuth config && Context.window_defined b
             then Context.localStorage_setItem (Context.the_storageKey config)
                    "authenticated" b
             else b)))
    else (false, Context.call (Context.onError config) b).
Proof.
  intros Hcfg Hne. unfold Context.authenticate. rewrite Hcfg.
  cbn [Context.truthy_string].
  destruct (String.eqb_spec secret ""); [done|]. cbn [negb].
  destruct (decide (p = secret)) as [->|Hp].
  - by rewrite !bool_decide_eq_true_2.
  - rewrite !bool_decide_eq_false_2; [done..|congruence].
Qed.

(** In remote mode a reply that does not report success is a failure
    whatever its error text is. *)
Lemma authenticate_remote_failure p b data :
  Context.truthy_string (Context.password config) = false ->
  fetch (Context.the_apiEndpoint config) (JObject [("password"%string, JString p)])
    = Some data ->
  success data = false ->
  Context.authenticate config fetch p b
  = (false, Context.call (Context.onError config) b).
Proof.
  intros Hmode Hfetch Hfail. unfold Context.authenticate.
  by rewrite Hmode, Hfetch, Hfail.
Qed.

(** C9. In local-secret mode ([config.password] set), [authenticate(p)]
    with [p] the secret stores the sentinel ['authenticated'] under the
    storage key when persistence is on (and there is a window), marks the
    session authenticated, runs the success callback once and nothing
    else of the application, and returns [true]; with any other [p] it
    runs the error callback once, leaves the session flag and the storage
    as they were, and returns [false]. *)
Theorem local_secret_authenticate p b secret :
  Context.password config = Some secret ->
  secret <> ""%string ->
  (p = secret ->
   exists b',
     Context.authenticate config fetch p b = (true, b')
     /\ Context.isAuthenticated b' = true
     /\ Context.localStorage b' =
          (if Context.the_persistAuth config && Context.window_defined b
           then <[Context.the_storageKey config := "authenticated"%string]>
                  (Context.localStorage b)
           else Context.localStorage b)
     /\ Context.app b' =
          match Context.onSuccess config with
          | Some onSuccess => onSuccess (Context.app b)
          | None => Context.app b
          end)
  /\ (p <> secret ->
      exists b',
        Context.authenticate config fetch p b = (false, b')
        /\ Context.isAuthenticated b' = Context.isAuthenticated b
        /\ Context.localStorage b' = Context.localStorage b
        /\ Context.app b' =
             match Context.onError config with
             | Some onError => onError (Context.app b)
             | None => Context.app b
             end).
Proof.
  intros Hcfg Hne. split; intros Hp;
    rewrite (authenticate_local p b secret Hcfg Hne).
  - rewrite bool_decide_eq_true_2 by done. eexists. split; [reflexivity|].
    destruct (Context.onSuccess config) as [f|];
      destruct (Context.the_persistAuth config && Context.window_defined b);
      by cbn.
  - rewrite bool_decide_eq_false_2 by done. eexists. split; [reflexivity|].
    by destruct (Context.onError config) as [f|].
Qed.

End Session.

Lemma local_secret_authenticate_witness :
  let config := Sample.counting_config (Some "abc"%string) in
  let page := Context.mounted true ∅ (0%nat, 0%nat) in
  Context.password config = Some "abc"%string
  /\ "abc"%string <> ""%string
  /\ (exists b',
        Context.authenticate config Sample.offline "abc" page = (true, b')
        /\ Context.isAuthenticated b' = true
        /\ Context.localStorage b'
           = {[ "password-protect-auth"%string := "authenticated"%string ]}
        /\ Context.app b' = (1%nat, 0%nat))
  /\ (exists b',
        Context.authenticate config Sample.offline "xyz" page = (false, b')
        /\ Context.isAuthenticated b' = false
        /\ Context.localStorage b' = ∅
        /\ Context.app b' = (0%nat, 1%nat)).
Proof.
  intros config page.
  assert (Hne : "abc"%string <> ""%string) by discriminate.
  split; [reflexivity|]. split; [exact Hne|]. split.
  - destruct (local_secret_authenticate config Sample.offline "abc" page "abc" eq_refl Hne)
      as ((b' & Hrun & Hauth & Hstore & Happ) & _); [reflexivity|].
    exists b'. split; [exact Hrun|]. split; [exact Hauth|].
    split; [rewrite Hstore; reflexivity | rewrite Happ; reflexivity].
  - destruct (local_secret_authenticate config Sample.offline "xyz" page "abc" eq_refl Hne)
      as (_ & (b' & Hrun & Hauth & Hstore & Happ)); [discriminate|].
    exists b'. split; [exact Hrun|]. split; [exact Hauth|].
    split; [exact Hstore | rewrite Happ; reflexivity].
Defined.

(** ** A token's life, end to end *)

(** Served by the handler: the secret is submitted, the token handed out
    is verified at once, and verified again after more than 24 hours
    without use. *)
Example token_lifecycle :
  let host :=
    {| APP_PASSWORD := Some "demo123"%string;
       clock := fun k => if (k <? 4)%nat then 1700000000000 + Z.of_nat k
                         else 1700000000000 + 2 * 86400000;
       entropy := Sample.octet_of_nat |} in
  let t := "0b30557a9fc4e90e33587da2c7ec11365b80a5caef14395e83a8cdf2173c6186"%string in
  let issue := handler host (Some (Sample.password_request "demo123")) boot in
  let verify := handler host (Some (Sample.token_request t)) issue.2 in
  let late := handler host (Some (Sample.token_request t)) verify.2 in
  issue.1 = Returned (token_issued t)
  /\ verify.1 = Returned token_valid
  /\ late.1 = Returned (failure "Token expired" 401)
  /\ size (tokenStore issue.2) = 1%nat
  /\ expiresAt <$> tokenStore verify.2 !! createTokenHash t = Some (1700000000003 + 86400000)
  /\ size (tokenStore late.2) = 0%nat.
Proof. vm_compute. do 5 (split; [reflexivity|]). reflexivity. Qed.

(** * Further properties of the sweep and of token generation *)

(** ** Sweeping twice *)

Lemma sweep_entries_twice (n1 n2 : Z) (store : gmap string TokenData) :
  sweep_entries n2 (sweep_entries n1 store) = sweep_entries (Z.max n1 n2) store.
Proof.
  apply map_eq. intros h. rewrite !sweep_entries_lookup.
  destruct (store !! h) as [d|]; [|done].
  destruct (Z.ltb_spec (expiresAt d) n1), (Z.ltb_spec (expiresAt d) (Z.max n1 n2));
    try lia; try done.
  destruct (Z.ltb_spec (expiresAt d) n2); [done | lia].
  destruct (Z.ltb_spec (expiresAt d) n2); [lia | done].
Qed.

(** X10. Two runs of the sweep in a row leave what one run at the later of
    the two clock readings leaves. So a second run with a clock that has
    not advanced removes nothing, and no run brings a record back. *)
Theorem sweep_twice (host : Host) (s : Server) :
  let first := clock host (clockReads s) in
  let second := clock host (S (clockReads s)) in
  tokenStore (sweep host (sweep host s))
  = sweep_entries (Z.max first second) (tokenStore s)
  /\ (second <= first -> tokenStore (sweep host (sweep host s)) = tokenStore (sweep host s))
  /\ tokenStore (sweep host (sweep host s)) ⊆ tokenStore (sweep host s)
  /\ tokenStore (sweep host s) ⊆ tokenStore s.
Proof.
  intros first second. cbn [sweep tokenStore clockReads]. fold first. fold second.
  rewrite sweep_entries_twice. split; [done|]. split; [|split].
  - intros Hle. by rewrite Z.max_l.
  - rewrite <- (sweep_entries_twice first second), (sweep_entries_filter second).
    apply map_filter_subseteq.
  - rewrite sweep_entries_filter. apply map_filter_subseteq.
Qed.

(** ** Tokens and the generator's octets *)

Lemma decode_octet (b : Byte.byte) (rest : string) :
  Unhex.decode (Hex.octet (octet_value b) rest)
  = match Unhex.decode rest with
    | Some bs => Some (octet_value b :: bs)
    | None => None
    end.
Proof.
  unfold Hex.octet. cbn [Unhex.decode].
  assert (Hhi : Unhex.value (Hex.digit (Z.shiftr (octet_value b) 4))
                = Some (Z.shiftr (octet_value b) 4)) by (destruct b; vm_compute; reflexivity).
  assert (Hlo : Unhex.value (Hex.digit (Z.land (octet_value b) 15))
                = Some (Z.land (octet_value b) 15)) by (destruct b; vm_compute; reflexivity).
  assert (Hsum : 16 * Z.shiftr (octet_value b) 4 + Z.land (octet_value b) 15 = octet_value b)
    by (destruct b; vm_compute; reflexivity).
  rewrite Hhi, Hlo. destruct (Unhex.decode rest); [|done]. by rewrite Hsum.
Qed.

Lemma decode_encode (buf : list Byte.byte) :
  Unhex.decode (Hex.encode (map octet_value buf)) = Some (map octet_value buf).
Proof.
  induction buf as [|b buf IH]; [reflexivity|].
  cbn [map Hex.encode]. by rewrite decode_octet, IH.
Qed.

Lemma octet_value_inj (a b : Byte.byte) : octet_value a = octet_value b -> a = b.
Proof.
  unfold octet_value. intros H. apply N2Z.inj in H.
  apply (f_equal Byte.of_N) in H. rewrite !Byte.of_to_N in H. by injection H.
Qed.

Lemma map_octet_value_inj (xs ys : list Byte.byte) :
  map octet_value xs = map octet_value ys -> xs = ys.
Proof.
  revert ys. induction xs as [|x xs IH]; intros [|y ys] H; try discriminate H; [done|].
  cbn [map] in H. injection H as Hx Hxs. f_equal; [by apply octet_value_inj | by apply IH].
Qed.

(** X13. A token is its octets in hex and nothing else: decoding the token
    that [generateToken] returns gives back the 32 octets drawn, so two
    tokens are equal exactly when the generator returned the same octets.
    A second login gets a different token if and only if the generator
    produced different octets. *)
Theorem token_determines_octets (host : Host) (s1 s2 : Server) :
  let t1 := Hex.encode (map octet_value (next_octets host s1 32)) in
  let t2 := Hex.encode (map octet_value (next_octets host s2 32)) in
  (generateToken host s1).1 = Returned t1
  /\ Unhex.decode t1 = Some (map octet_value (next_octets host s1 32))
  /\ (t1 = t2 <-> next_octets host s1 32 = next_octets host s2 32).
Proof.
  intros t1 t2. subst t1 t2.
  split; [rewrite generateToken_run; reflexivity|]. split; [apply decode_encode|]. split.
  - intros E. apply (f_equal Unhex.decode) in E.
    rewrite !decode_encode in E. apply map_octet_value_inj. congruence.
  - intros E. by rewrite E.
Qed.

(** * Further properties of the client *)

Section Client.
Context {App : Type}.
Variable config : Context.PasswordProtectConfig App.
Variable fetch : string -> json -> option ResponseBody.
Implicit Types (b : Context.Browser App) (p : string).

Lemma verifyStoredToken_skips b :
  (forall stored, ¬ Mounting.reads config b stored) ->
  Context.verifyStoredToken config fetch b = Context.setIsVerifying false b.
Proof.
  intros Hno. unfold Context.verifyStoredToken.
  destruct (Context.the_persistAuth config) eqn:Hp; [|done].
  destruct (Context.window_defined b) eqn:Hw; [|done]. cbn [negb orb].
  destruct (Context.localStorage b !! Context.the_storageKey config) as [stored|] eqn:Hl;
    [|done].
  destruct (String.eqb_spec stored "") as [->|Hne]; [done|].
  by destruct (Hno stored).
Qed.

Lemma verifyStoredToken_reads b stored :
  Mounting.reads config b stored ->
  Context.verifyStoredToken config fetch b =
    match fetch (Context.the_apiEndpoint config)
            (JObject [("token"%string, JString stored)]) with
    | Some data =>
        if success data && bool_decide (valid data = Some true)
        then Context.setIsVerifying false (Context.setIsAuthenticated true b)
        else Context.setIsVerifying false
               (Context.setIsAuthenticated false
                  (Context.localStorage_removeItem (Context.the_storageKey config) b))
    | None =>
        Context.setIsVerifying false
          (Context.setIsAuthenticated false
             (Context.localStorage_removeItem (Context.the_storageKey config) b))
    end.
Proof.
  intros (Hp & Hw & Hl & Hne). unfold Context.verifyStoredToken.
  rewrite Hp, Hw, Hl. cbn [negb orb].
  by destruct (String.eqb_spec stored "").
Qed.

Lemma verifyStoredToken_outcome b stored :
  Mounting.reads config b stored ->
  (Mounting.confirmed config fetch stored ->
   Context.verifyStoredToken config fetch b
   = Context.setIsVerifying false (Context.setIsAuthenticated true b))
  /\ (¬ Mounting.confirmed config fetch stored ->
      Context.verifyStoredToken config fetch b
      = Context.setIsVerifying false
          (Context.setIsAuthenticated false
             (Context.localStorage_removeItem (Context.the_storageKey config) b))).
Proof.
  intros Hr. rewrite (verifyStoredToken_reads b stored Hr). split.
  - intros (data & Hf & Hs & Hv). rewrite Hf, Hs, Hv.
    by rewrite bool_decide_eq_true_2.
  - intros Hnc.
    destruct (fetch (Context.the_apiEndpoint config)
                (JObject [("token"%string, JString stored)])) as [data|] eqn:Hf; [|done].
    destruct (success data && bool_decide (valid data = Some true)) eqn:Hok; [|done].
    apply andb_prop in Hok as [Hs Hv]. apply bool_decide_eq_true in Hv.
    destruct Hnc. by exists data.
Qed.

Lemma authenticate_remote_success p b data t :
  Context.truthy_string (Context.password config) = false ->
  fetch (Context.the_apiEndpoint config) (JObject [("password"%string, JString p)])
    = Some data ->
  success data = true -> token data = Some t -> t <> ""%string ->
  Context.authenticate config fetch p b
  = (true,
     Context.call (Context.onSuccess config)
       (Context.setIsAuthenticated true
          (if Context.the_persistAuth config && Context.window_defined b
           then Context.localStorage_setItem (Context.the_storageKey config) t b
           else b))).
Proof.
  intros Hmode Hf Hs Ht Hne. unfold Context.authenticate.
  rewrite Hmode, Hf, Hs, Ht. cbn [Context.truthy_string andb].
  destruct (String.eqb_spec t "") as [|_]; [done|]. reflexivity.
Qed.

Lemma confirmed_dec stored :
  Mounting.confirmed config fetch stored \/ ¬ Mounting.confirmed config fetch stored.
Proof.
  unfold Mounting.confirmed.
  destruct (fetch (Context.the_apiEndpoint config)
              (JObject [("token"%string, JString stored)])) as [data|];
    [|right; intros (d & E & _); discriminate E].
  destruct (success data) eqn:Hs;
    [|right; intros (d & [= <-] & E & _); congruence].
  destruct (decide (valid data = Some true)) as [Hv|Hv];
    [left; eauto | right; intros (d & [= <-] & _ & E); congruence].
Qed.

(** X16. Mounting fails closed. A page mounts showing the spinner; when
    the stored token has been dealt with the spinner is gone, and the
    protected children are on the page exactly when the provider read a
    stored token and the endpoint confirmed it. In every other case,
    nothing stored, persistence off, a reply that is not a confirmation, a
    failed call, the password form is shown. Neither callback runs. *)
Theorem mount_fails_closed b :
  Context.isAuthenticated b = false ->
  Context.isVerifying b = true ->
  let b' := Context.verifyStoredToken config fetch b in
  Wrapper.render b = Wrapper.Spinner
  /\ (Wrapper.render b' = Wrapper.Children
      <-> exists stored,
            Mounting.reads config b stored /\ Mounting.confirmed config fetch stored)
  /\ (Wrapper.render b' = Wrapper.PasswordForm
      <-> ¬ exists stored,
              Mounting.reads config b stored /\ Mounting.confirmed config fetch stored)
  /\ Context.app b' = Context.app b.
Proof.
  intros Hauth Hver b'. subst b'. unfold Wrapper.render at 1. rewrite Hver.
  split; [reflexivity|].
  destruct (Context.localStorage b !! Context.the_storageKey config) as [stored|] eqn:Hl.
  2: { rewrite verifyStoredToken_skips by (intros stored (_ & _ & E & _); congruence).
       unfold Wrapper.render. cbn. rewrite Hauth.
       split; [|split; [|reflexivity]].
       - split; [discriminate|]. intros (stored & (_ & _ & E & _) & _). congruence.
       - split; [|done]. intros _ (stored & (_ & _ & E & _) & _). congruence. }
  assert (Hdec : Mounting.reads config b stored \/ ¬ Mounting.reads config b stored).
  { unfold Mounting.reads. rewrite Hl.
    destruct (Context.the_persistAuth config); [|right; intros (E & _); discriminate E].
    destruct (Context.window_defined b); [|right; intros (_ & E & _); discriminate E].
    destruct (decide (stored = ""%string)) as [->|Hne];
      [right; intros (_ & _ & _ & E); by destruct E | by left]. }
  destruct Hdec as [Hr | Hnr].
  - rewrite (verifyStoredToken_reads b stored Hr).
    assert (Honly : forall stored', Mounting.reads config b stored' -> stored' = stored).
    { intros stored' (_ & _ & E & _). congruence. }
    destruct (confirmed_dec stored) as [Hc | Hnc].
    + destruct Hc as (data & Hf & Hs & Hv). rewrite Hf, Hs, Hv.
      rewrite bool_decide_eq_true_2 by done. cbn.
      split; [|split; [|reflexivity]].
      * split; [|done]. intros _. exists stored. split; [done|]. by exists data.
      * split; [discriminate|]. intros Hno. destruct Hno.
        exists stored. split; [done|]. by exists data.
    + assert (Hno : ¬ exists stored', Mounting.reads config b stored'
                                     /\ Mounting.confirmed config fetch stored').
      { intros (stored' & Hr' & Hc'). by rewrite (Honly stored' Hr') in Hc'. }
      destruct (fetch (Context.the_apiEndpoint config)
                  (JObject [("token"%string, JString stored)])) as [data|] eqn:Hf.
      * destruct (success data && bool_decide (valid data = Some true)) eqn:Hok.
        -- apply andb_prop in Hok as [Hs Hv]. apply bool_decide_eq_true in Hv.
           destruct Hnc. exists data. by rewrite Hf.
        -- cbn. split; [|split; [|reflexivity]]; split; try done; discriminate.
      * cbn. split; [|split; [|reflexivity]]; split; try done; discriminate.
  - rewrite verifyStoredToken_skips.
    2: { intros stored' Hr'. destruct Hr' as (Hp' & Hw' & E & Hne').
         rewrite Hl in E. injection E as <-. apply Hnr. by repeat split. }
    unfold Wrapper.render. cbn. rewrite Hauth.
    split; [|split; [|reflexivity]].
    + split; [discriminate|]. intros (stored' & Hr' & _).
      destruct Hr' as (Hp' & Hw' & E & Hne').
      rewrite Hl in E. injection E as <-. destruct Hnr. by repeat split.
    + split; [|done]. intros _ (stored' & Hr' & _).
      destruct Hr' as (Hp' & Hw' & E & Hne').
      rewrite Hl in E. injection E as <-. destruct Hnr. by repeat split.
Qed.

(** X17. What mounting does to the storage. Only the entry under the
    storage key can change. A stored token the provider reads and the
    endpoint does not confirm is removed and the session is left
    unauthenticated; a confirmed one is kept; and when the provider does
    not read the storage, nothing changes at all. *)
Theorem mount_storage b :
  let b' := Context.verifyStoredToken config fetch b in
  let key := Context.the_storageKey config in
  (forall k, k <> key -> Context.localStorage b' !! k = Context.localStorage b !! k)
  /\ (forall stored,
        Mounting.reads config b stored -> ¬ Mounting.confirmed config fetch stored ->
        Context.localStorage b' = delete key (Context.localStorage b)
        /\ Context.isAuthenticated b' = false)
  /\ (forall stored,
        Mounting.reads config b stored -> Mounting.confirmed config fetch stored ->
        Context.localStorage b' = Context.localStorage b
        /\ Context.isAuthenticated b' = true)
  /\ ((forall stored, ¬ Mounting.reads config b stored) ->
      Context.localStorage b' = Context.localStorage b
      /\ Context.isAuthenticated b' = Context.isAuthenticated b).
Proof.
  intros b' key. subst b'.
  pose proof (verifyStoredToken_outcome b) as Hread. fold key in Hread.
  split; [|split; [|split]].
  - intros k Hk.
    destruct (Context.localStorage b !! key) as [stored|] eqn:Hl.
    2: { by rewrite verifyStoredToken_skips
           by (intros stored (_ & _ & E & _); fold key in E; congruence). }
    destruct (Context.the_persistAuth config) eqn:Hp.
    2: { by rewrite verifyStoredToken_skips
           by (intros stored' (E & _); congruence). }
    destruct (Context.window_defined b) eqn:Hw.
    2: { by rewrite verifyStoredToken_skips
           by (intros stored' (_ & E & _); congruence). }
    destruct (decide (stored = ""%string)) as [->|Hne].
    { rewrite verifyStoredToken_skips; [done|].
      intros stored' (_ & _ & E & Hne'). fold key in E. congruence. }
    assert (Hr : Mounting.reads config b stored) by done.
    destruct (confirmed_dec stored) as [Hc|Hnc].
    + by rewrite (proj1 (Hread stored Hr) Hc).
    + rewrite (proj2 (Hread stored Hr) Hnc). cbn. by rewrite lookup_delete_ne.
  - intros stored Hr Hnc. by rewrite (proj2 (Hread stored Hr) Hnc).
  - intros stored Hr Hc. by rewrite (proj1 (Hread stored Hr) Hc).
  - intros Hno. by rewrite (verifyStoredToken_skips b Hno).
Qed.

(** X18. Remote mode ([config.password] unset or empty). [authenticate(p)]
    posts [{password: p}] and succeeds exactly on a reply that reports
    success with a non-empty token: it then stores that token under the
    storage key (persistence on, window there), marks the session
    authenticated and runs the success callback once. On any other reply,
    and when the call or the parsing of the reply fails, it returns
    [false], runs the error callback once and touches neither the session
    flag nor the storage. *)
Theorem remote_authenticate p b :
  Context.truthy_string (Context.password config) = false ->
  let reply :=
    fetch (Context.the_apiEndpoint config) (JObject [("password"%string, JString p)]) in
  (forall data t,
     reply = Some data -> success data = true -> token data = Some t -> t <> ""%string ->
     exists b',
       Context.authenticate config fetch p b = (true, b')
       /\ Context.isAuthenticated b' = true
       /\ Context.localStorage b' =
            (if Context.the_persistAuth config && Context.window_defined b
             then <[Context.the_storageKey config := t]> (Context.localStorage b)
             else Context.localStorage b)
       /\ Context.app b' =
            match Context.onSuccess config with
            | Some onSuccess => onSuccess (Context.app b)
            | None => Context.app b
            end)
  /\ ((reply = None
       \/ exists data, reply = Some data
                       /\ (success data = false \/ token data = None
                           \/ token data = Some ""%string)) ->
      exists b',
        Context.authenticate config fetch p b = (false, b')
        /\ Context.isAuthenticated b' = Context.isAuthenticated b
        /\ Context.localStorage b' = Context.localStorage b
        /\ Context.app b' =
             match Context.onError config with
             | Some onError => onError (Context.app b)
             | None => Context.app b
             end).
Proof.
  intros Hmode reply. subst reply. split.
  - intros data t Hf Hs Ht Hne. eexists.
    split; [exact (authenticate_remote_success p b data t Hmode Hf Hs Ht Hne)|].
    destruct (Context.onSuccess config) as [f|];
      destruct (Context.the_persistAuth config && Context.window_defined b);
      by cbn.
  - intros Hbad. unfold Context.authenticate. rewrite Hmode. eexists. split.
    + destruct Hbad as [-> | (data & -> & Hbad)]; [reflexivity|].
      destruct Hbad as [-> | [-> | ->]]; [reflexivity | |];
        by rewrite andb_false_r.
    + by destruct (Context.onError config) as [f|].
Qed.

(** X19. [logout()] always leaves the session unauthenticated, runs no
    callback and changes the storage at most under the storage key, which
    it clears when persistence is on and there is a window. A page mounted
    again on what is left asks no endpoint and shows the password
    form. *)
Theorem logout_then_reload b :
  let b1 := Context.logout config b in
  let key := Context.the_storageKey config in
  Context.isAuthenticated b1 = false
  /\ Context.app b1 = Context.app b
  /\ (forall k, k <> key -> Context.localStorage b1 !! k = Context.localStorage b !! k)
  /\ (Context.the_persistAuth config = true -> Context.window_defined b = true ->
      Context.localStorage b1 !! key = None)
  /\ (let reloaded :=
        Context.mounted (Context.window_defined b1) (Context.localStorage b1)
          (Context.app b1) in
      Context.verifyStoredToken config fetch reloaded
      = Context.setIsVerifying false reloaded
      /\ Wrapper.render (Context.verifyStoredToken config fetch reloaded)
         = Wrapper.PasswordForm).
Proof.
  intros b1 key. subst b1. unfold Context.logout.
  cbn [Context.setIsAuthenticated Context.window_defined].
  destruct (Context.the_persistAuth config) eqn:Hp;
    destruct (Context.window_defined b) eqn:Hw; cbn [andb].
  2-4: cbn; rewrite ?Hw; (split; [done|]); (split; [done|]); (split; [done|]);
       (split; [done|]);
       rewrite verifyStoredToken_skips
         by (intros stored (E1 & E2 & _); cbn in E2; congruence); by cbn.
  cbn. split; [done|]. split; [done|]. split; [|split].
  - intros k Hk. by rewrite lookup_delete_ne.
  - intros _ _. apply lookup_delete_eq.
  - rewrite verifyStoredToken_skips; [by cbn|].
    intros stored (_ & _ & E & _). cbn in E. fold key in E.
    by rewrite lookup_delete_eq in E.
Qed.

End Client.

Lemma mount_fails_closed_witness :
  let live := Process.endpoint Sample.host (Sample.holding 1800000000000) in
  let stale := Process.endpoint Sample.host (Sample.holding 5) in
  let page :=
    Context.mounted true {[ "password-protect-auth"%string := Sample.a_token ]}
      (0%nat, 0%nat) in
  Context.isAuthenticated page = false
  /\ Context.isVerifying page = true
  /\ Wrapper.render page = Wrapper.Spinner
  /\ Wrapper.render (Context.verifyStoredToken Scenario.remote_config live page)
     = Wrapper.Children
  /\ Wrapper.render (Context.verifyStoredToken Scenario.remote_config stale page)
     = Wrapper.PasswordForm.
Proof.
  intros live stale page.
  assert (Hreads : Mounting.reads Scenario.remote_config page Sample.a_token).
  { split; [reflexivity|]. split; [reflexivity|].
    split; [vm_compute; reflexivity | discriminate]. }
  split; [reflexivity|]. split; [reflexivity|].
  destruct (mount_fails_closed Scenario.remote_config live page eq_refl eq_refl)
    as (Hspinner & Hchildren & _).
  destruct (mount_fails_closed Scenario.remote_config stale page eq_refl eq_refl)
    as (_ & _ & Hform & _).
  split; [exact Hspinner|]. split.
  - apply Hchildren. exists Sample.a_token. split; [exact Hreads|].
    exists (body token_valid). split; [vm_compute; reflexivity|]. split; reflexivity.
  - apply Hform. intros (stored & (_ & _ & Hl & _) & data & Hf & Hs & _).
    vm_compute in Hl. injection Hl as <-.
    vm_compute in Hf. injection Hf as <-. discriminate Hs.
Defined.

Lemma mount_storage_witness :
  let page :=
    Context.mounted true
      (<["password-protect-auth"%string := Sample.a_token]>
         {[ "theme"%string := "dark"%string ]})
      (0%nat, 0%nat) in
  let b' := Context.verifyStoredToken Scenario.remote_config Sample.offline page in
  Mounting.reads Scenario.remote_config page Sample.a_token
  /\ ¬ Mounting.confirmed Scenario.remote_config Sample.offline Sample.a_token
  /\ Context.localStorage b' = {[ "theme"%string := "dark"%string ]}
  /\ Context.isAuthenticated b' = false.
Proof.
  intros page b'.
  assert (Hreads : Mounting.reads Scenario.remote_config page Sample.a_token).
  { split; [reflexivity|]. split; [reflexivity|]. split; [vm_compute; reflexivity | discriminate]. }
  assert (Hnc : ¬ Mounting.confirmed Scenario.remote_config Sample.offline Sample.a_token).
  { intros (data & Hf & _). discriminate Hf. }
  split; [exact Hreads|]. split; [exact Hnc|].
  destruct (mount_storage Scenario.remote_config Sample.offline page)
    as (_ & Hremoved & _).
  destruct (Hremoved Sample.a_token Hreads Hnc) as (Hstore & Hauth).
  split; [|exact Hauth]. subst b'. rewrite Hstore. vm_compute. reflexivity.
Defined.

Lemma remote_authenticate_witness :
  let fetch := Process.endpoint Sample.host boot in
  let t := "0b30557a9fc4e90e33587da2c7ec11365b80a5caef14395e83a8cdf2173c6186"%string in
  Context.truthy_string (Context.password Scenario.remote_config) = false
  /\ (exists b',
        Context.authenticate Scenario.remote_config fetch "demo123" Scenario.page = (true, b')
        /\ Context.localStorage b' = {[ "password-protect-auth"%string := t ]}
        /\ Context.app b' = (1%nat, 0%nat))
  /\ (exists b',
        Context.authenticate Scenario.remote_config fetch "letmein" Scenario.page = (false, b')
        /\ Context.localStorage b' = ∅
        /\ Context.app b' = (0%nat, 1%nat)).
Proof.
  intros fetch t.
  split; [reflexivity|].
  destruct (remote_authenticate Scenario.remote_config fetch "demo123" Scenario.page eq_refl)
    as (Hok & _).
  destruct (remote_authenticate Scenario.remote_config fetch "letmein" Scenario.page eq_refl)
    as (_ & Hbad).
  split.
  - destruct (Hok (body (token_issued t)) t) as (b' & Hrun & _ & Hstore & Happ);
      [vm_compute; reflexivity | reflexivity | reflexivity | discriminate |].
    exists b'. split; [exact Hrun|]. split; [rewrite Hstore | rewrite Happ]; reflexivity.
  - destruct Hbad as (b' & Hrun & _ & Hstore & Happ).
    { right. exists (body (failure "Incorrect password" 401)).
      split; [vm_compute; reflexivity | by left]. }
    exists b'. split; [exact Hrun|]. split; [rewrite Hstore | rewrite Happ]; reflexivity.
Defined.

(** * The password form *)

(** X22. Submitting the form. When [authenticate] returns [true] the
    form ends idle with its input kept and no error shown. When it returns
    [false] the form ends idle with the input cleared and the error
    shown, and the text shown is [config.errorMessage] or the default
    'Incorrect password. Please try again.': it does not depend on why
    the attempt failed, and in remote mode not on the error text of the
    reply. Typing again hides the error. *)
Theorem submit_outcome {App : Type} (config : Context.PasswordProtectConfig App)
    (fetch : string -> json -> option ResponseBody) (errorMessage : option string)
    (f : Form.State) (b b' : Context.Browser App) (isValid : bool) :
  Context.authenticate config fetch (Form.password f) b = (isValid, b') ->
  let f' := (Form.handleSubmit config fetch f b).1 in
  (Form.handleSubmit config fetch f b).2 = b'
  /\ Form.isSubmitting f' = false
  /\ Form.error f' = negb isValid
  /\ Form.password f' = (if isValid then Form.password f else ""%string)
  /\ Form.shown_error errorMessage f' =
       (if isValid then None
        else Some (or_else errorMessage "Incorrect password. Please try again."))
  /\ (forall typed, Form.shown_error errorMessage (Form.onChange typed f') = None)
  /\ (Context.truthy_string (Context.password config) = false ->
      forall data,
        fetch (Context.the_apiEndpoint config)
          (JObject [("password"%string, JString (Form.password f))]) = Some data ->
        success data = false ->
        isValid = false).
Proof.
  intros Hrun f'. subst f'. unfold Form.handleSubmit.
  cbn [Form.password]. rewrite Hrun.
  destruct isValid; cbn.
  - do 6 (split; [reflexivity|]). intros Hmode data Hf Hs.
    rewrite (authenticate_remote_failure config fetch _ b data Hmode Hf Hs) in Hrun.
    by injection Hrun.
  - do 6 (split; [reflexivity|]). reflexivity.
Qed.

Lemma submit_outcome_witness :
  let config := Scenario.remote_config in
  let fetch := Process.endpoint Sample.host boot in
  let typed := Form.onChange "letmein" Form.initial in
  Context.authenticate config fetch (Form.password typed) Scenario.page
  = (false, Context.call (Context.onError config) Scenario.page)
  /\ (Form.handleSubmit config fetch typed Scenario.page).1
     = {| Form.password := ""; Form.error := true; Form.isSubmitting := false |}
  /\ Form.shown_error None (Form.handleSubmit config fetch typed Scenario.page).1
     = Some "Incorrect password. Please try again."%string
  /\ Form.shown_error (Some "Access denied."%string)
       (Form.handleSubmit config fetch typed Scenario.page).1
     = Some "Access denied."%string.
Proof.
  intros config fetch typed.
  assert (Hrun : Context.authenticate config fetch (Form.password typed) Scenario.page
                 = (false, Context.call (Context.onError config) Scenario.page))
    by (vm_compute; reflexivity).
  split; [exact Hrun|].
  destruct (submit_outcome config fetch None typed _ _ _ Hrun)
    as (_ & Hidle & Herror & Hinput & Hshown & _).
  destruct (submit_outcome config fetch (Some "Access denied."%string) typed _ _ _ Hrun)
    as (_ & _ & _ & _ & Hshown' & _).
  split; [|split; [exact Hshown | exact Hshown']].
  destruct (Form.handleSubmit config fetch typed Scenario.page).1 as [pw err sub].
  cbn in Hidle, Herror, Hinput. by subst.
Defined.

(** * Worked instances of the unconditional statements *)

Lemma sweep_twice_witness :
  let steady := {| APP_PASSWORD := None; clock := fun _ => 1700000000000;
                   entropy := Sample.octet_of_nat |} in
  clock steady 1 <= clock steady 0
  /\ tokenStore (sweep steady (sweep steady Sample.mixed))
     = tokenStore (sweep steady Sample.mixed)
  /\ size (tokenStore (sweep steady (sweep steady Sample.mixed))) = 1%nat.
Proof.
  intros steady.
  assert (Hle : clock steady 1 <= clock steady 0) by (vm_compute; discriminate).
  destruct (sweep_twice steady Sample.mixed) as (_ & Hsame & _).
  split; [exact Hle|]. split; [exact (Hsame Hle)|].
  rewrite (Hsame Hle). vm_compute. reflexivity.
Defined.

Lemma token_determines_octets_witness :
  let later := {| tokenStore := ∅; clockReads := 2; entropyReads := 32 |} in
  next_octets Sample.host boot 32 <> next_octets Sample.host later 32
  /\ Hex.encode (map octet_value (next_octets Sample.host boot 32))
     <> Hex.encode (map octet_value (next_octets Sample.host later 32)).
Proof.
  intros later.
  assert (Hne : next_octets Sample.host boot 32 <> next_octets Sample.host later 32)
    by (vm_compute; discriminate).
  split; [exact Hne|].
  destruct (token_determines_octets Sample.host boot later) as (_ & _ & Hiff).
  intros E. exact (Hne (proj1 Hiff E)).
Defined.

Lemma logout_then_reload_witness :
  let page :=
    Context.setIsVerifying false
      (Context.setIsAuthenticated true
         (Context.mounted true
            (<["password-protect-auth"%string := Sample.a_token]>
               {[ "theme"%string := "dark"%string ]})
            (0%nat, 0%nat))) in
  let b1 := Context.logout Scenario.remote_config page in
  Context.the_persistAuth Scenario.remote_config = true
  /\ Context.window_defined page = true
  /\ Context.isAuthenticated b1 = false
  /\ Context.localStorage b1 !! "password-protect-auth"%string = None
  /\ Context.localStorage b1 !! "theme"%string = Some "dark"%string.
Proof.
  intros page b1.
  destruct (logout_then_reload Scenario.remote_config Sample.offline page)
    as (Hout & _ & Hothers & Hcleared & _).
  split; [reflexivity|]. split; [reflexivity|]. split; [exact Hout|].
  split; [exact (Hcleared eq_refl eq_refl)|].
  subst b1. rewrite (Hothers "theme"%string) by discriminate.
  vm_compute. reflexivity.
Defined.
